(** * terraform-provider-n8ncloud: a shallow embedding of the API client and
    of the provider's user resource, user data source and configuration.

    Sources embedded (as laid out in the repository snapshot):
    - client.go and types.go (Client, NewClient, doRequest, User,
      CreateUserRequest, ErrorResponse), appended to
      examples/resources/n8ncloud_user/resource.tf
    - internal/client/users.go (GetUser, GetUserByEmail, CreateUser,
      UpdateUserRole, DeleteUser)
    - internal/provider/provider.go (N8nCloudProvider.Configure)
    - internal/provider/user_data_source.go (UserDataSource.Read, then the
      user resource: UserResource.Create, Read, Update, Delete, ImportState)

    Network calls are modelled by a reader/state monad: the reader is the
    remote side (a [Server] answering each request, possibly depending on
    every earlier request), the state is the trace of requests handed to
    [doRequest] so far. *)

From Stdlib Require Import String Ascii List ZArith Bool Lia DecimalString.
Import ListNotations.
Open Scope string_scope.
Open Scope Z_scope.
Set Warnings "-register-all".

(** ** Go values *)

(** A Go [(T, error)] pair where exactly one side is meaningful. *)
Inductive result (A : Type) : Type :=
| Ok (a : A)
| Err (e : string).
Arguments Ok {A} a.
Arguments Err {A} e.

(** Decimal rendering of an integer, as [fmt]'s [%d] does. *)
Definition itoa (z : Z) : string := NilZero.string_of_int (Z.to_int z).

(** Go's [int64] wrap-around. *)
Definition wrap64 (z : Z) : Z :=
  let m := z mod 2 ^ 64 in if 2 ^ 63 <=? m then m - 2 ^ 64 else m.

(** Substring test, used to state what an error message carries. *)
Fixpoint contains (sub s : string) : bool :=
  prefix sub s || match s with
                  | EmptyString => false
                  | String _ s' => contains sub s'
                  end.

(** ** JSON values and [encoding/json] decoding into [ErrorResponse] *)

Inductive json : Type :=
| JNull
| JBool (b : bool)
| JNumber (literal : string)
| JString (s : string)
| JArray (xs : list json)
| JObject (kvs : list (string * json)).

(** ErrorResponse represents an error response from the API *)
Record ErrorResponse : Type := mkErrorResponse {
  Code : string;
  Message : string;
  Hint : string
}.

Definition zeroErrorResponse : ErrorResponse :=
  mkErrorResponse EmptyString EmptyString EmptyString.

(** ASCII upper-casing of one byte, the single-byte case of [foldName]. *)
Definition ascii_upper (ch : ascii) : ascii :=
  let n := nat_of_ascii ch in
  if (97 <=? n)%nat && (n <=? 122)%nat then ascii_of_nat (n - 32)%nat else ch.

(** [foldName] of [encoding/json] (fold.go) on the UTF-8 bytes of a key:
    ASCII letters are upper-cased, and each multi-byte rune is replaced by
    the smallest rune of its case-folding orbit ([foldRune]). The only
    runes outside ASCII whose orbit holds an ASCII letter are U+017F (long
    s, bytes C5 BF, orbit [S s] and itself) and U+212A (Kelvin sign, bytes
    E2 84 AA, orbit [K k] and itself); they fold to [S] and [K]. Every other
    non-ASCII rune folds to a non-ASCII rune, and is kept here as its bytes:
    that is exact for the comparisons below, which are all against ASCII
    tags, since such a byte can never be equal to an ASCII one. *)
Fixpoint foldName (s : string) : string :=
  match s with
  | EmptyString => EmptyString
  | String b1 tl =>
      if (nat_of_ascii b1 <? 128)%nat then String (ascii_upper b1) (foldName tl)
      else
        match tl with
        | String b2 tl2 =>
            if (nat_of_ascii b1 =? 197)%nat && (nat_of_ascii b2 =? 191)%nat
            then String "S" (foldName tl2)
            else
              match tl2 with
              | String b3 tl3 =>
                  if (nat_of_ascii b1 =? 226)%nat && (nat_of_ascii b2 =? 132)%nat
                     && (nat_of_ascii b3 =? 170)%nat
                  then String "K" (foldName tl3)
                  else String b1 (foldName tl)
              | EmptyString => String b1 (foldName tl)
              end
        | EmptyString => String b1 EmptyString
        end
  end.

(** [encoding/json] matches an object key to a struct tag when the two
    have the same [foldName] (after an exact match, which implies it). *)
Definition key_matches (key tag : string) : bool :=
  String.eqb (foldName key) (foldName tag).

(** One object member stored into an [ErrorResponse]: a JSON string sets the
    field, [null] leaves it alone, any other value is an
    [UnmarshalTypeError] (the whole [Unmarshal] then reports an error);
    unknown keys are ignored. *)
Definition storeErrorField (acc : option ErrorResponse) (kv : string * json)
  : option ErrorResponse :=
  match acc with
  | None => None
  | Some e =>
      let (k, v) := kv in
      let set (f : string -> ErrorResponse) :=
        match v with
        | JString s => Some (f s)
        | JNull => Some e
        | _ => None
        end in
      if key_matches k "code" then
        set (fun s => mkErrorResponse s (Message e) (Hint e))
      else if key_matches k "message" then
        set (fun s => mkErrorResponse (Code e) s (Hint e))
      else if key_matches k "hint" then
        set (fun s => mkErrorResponse (Code e) (Message e) s)
      else Some e
  end.

(** [json.Unmarshal(body, &errResp)] for a zero [ErrorResponse]: [None] is
    the error case. The syntactic layer (bytes to JSON value) is
    [parseJSON]; [null] decodes to the untouched zero value, an object
    member by member, anything else is a type error. *)
Definition unmarshalErrorResponse (parseJSON : string -> option json)
  (body : string) : option ErrorResponse :=
  match parseJSON body with
  | Some JNull => Some zeroErrorResponse
  | Some (JObject kvs) => fold_left storeErrorField kvs (Some zeroErrorResponse)
  | _ => None
  end.

(** ** Requests, the client and the transport *)

Inductive Method : Type := MethodGet | MethodPost | MethodPatch | MethodDelete.

Definition Method_eqb (a b : Method) : bool :=
  match a, b with
  | MethodGet, MethodGet | MethodPost, MethodPost
  | MethodPatch, MethodPatch | MethodDelete, MethodDelete => true
  | _, _ => false
  end.

(** CreateUserRequest represents the request to create a new user *)
Record CreateUserRequest : Type := mkCreateUserRequest {
  req_Email : string;
  req_Role : string;
  req_FirstName : string;
  req_LastName : string
}.

(** The JSON bodies [doRequest] is given. [json.Marshal] cannot fail on
    these string-only structs, so the marshal error branch is unreachable
    and not modelled. *)
Inductive RequestBody : Type :=
| BodyCreateUser (r : CreateUserRequest)
| BodyUpdateUserRole (NewRoleName : string).

(** What [doRequest] hands to [http.Client.Do]: method, URL, the
    [X-N8N-API-KEY] header and the body (the other headers are constants). *)
Record Request : Type := mkRequest {
  rq_method : Method;
  rq_url : string;
  rq_apiKey : string;
  rq_body : option RequestBody
}.

(** Client is the n8n API client. [httpTimeout] is the [http.Client]'s
    timeout in nanoseconds ([time.Duration]). *)
Record Client : Type := mkClient {
  baseURL : string;
  apiKey : string;
  httpTimeout : Z
}.

(** What the transport yields for one request: a failure of
    [http.NewRequestWithContext], of [httpClient.Do] (DNS, TLS, timeout,
    cancellation), of [io.ReadAll], or a response with its status and its
    fully read body. *)
Inductive HttpOutcome : Type :=
| NewRequestFailed (msg : string)
| DoFailed (msg : string)
| ReadFailed (msg : string)
| Response (status : Z) (body : string).

(** The remote side: the outcome of a request given every earlier request. *)
Definition Server : Type := list Request -> Request -> HttpOutcome.

(** Reader (the server) and state (the request trace). *)
Definition M (A : Type) : Type := Server -> list Request -> A * list Request.

Definition ret {A} (a : A) : M A := fun _ tr => (a, tr).

Definition bind {A B} (m : M A) (k : A -> M B) : M B :=
  fun srv tr => let (a, tr') := m srv tr in k a srv tr'.

Notation "x <- m ;; k" := (bind m (fun x => k))
  (at level 61, m at next level, right associativity).

(** Classification of a transport outcome, the tail of [doRequest]. *)
Definition classify (parseJSON : string -> option json) (o : HttpOutcome)
  : result string :=
  match o with
  | NewRequestFailed m => Err ("failed to create request: " ++ m)
  | DoFailed m => Err ("failed to perform request: " ++ m)
  | ReadFailed m => Err ("failed to read response body: " ++ m)
  | Response status respBody =>
      if 400 <=? status then
        match unmarshalErrorResponse parseJSON respBody with
        | None => Err ("HTTP " ++ itoa status ++ ": " ++ respBody)
        | Some errResp =>
            Err ("API error: " ++ Code errResp ++ " - " ++ Message errResp)
        end
      else Ok respBody
  end.

(** doRequest performs an HTTP request. *)
Definition doRequest (parseJSON : string -> option json) (c : Client)
  (method : Method) (path : string) (body : option RequestBody)
  : M (result string) :=
  fun srv tr =>
    let req := mkRequest method (baseURL c ++ "/api/v1" ++ path) (apiKey c) body in
    (classify parseJSON (srv tr req), (tr ++ [req])%list).

(** ** The user entity (types.go) *)

(** The data source reads [user.GlobalRole.Name]; the struct carrying it is
    not declared in types.go, so it is this optional role record. *)
Record UserGlobalRole : Type := mkUserGlobalRole { Name : string }.

(** User represents an n8n cloud user. [Time] stands for [time.Time], which
    the provider only ever formats. *)
Record User (Time : Type) : Type := mkUser {
  ID : string;
  Email : string;
  FirstName : option string;
  LastName : option string;
  IsPending : bool;
  CreatedAt : Time;
  UpdatedAt : Time;
  Role : string;
  GlobalRole : option UserGlobalRole;
  InviteAcceptUrl : string
}.
Arguments mkUser {Time}.
Arguments ID {Time}. Arguments Email {Time}. Arguments FirstName {Time}.
Arguments LastName {Time}. Arguments IsPending {Time}.
Arguments CreatedAt {Time}. Arguments UpdatedAt {Time}.
Arguments Role {Time}. Arguments GlobalRole {Time}.
Arguments InviteAcceptUrl {Time}.

(** The library behaviour the code relies on without defining it:
    [t.Format(time.RFC3339)], the syntactic layer of [encoding/json], and
    [json.Unmarshal] of a body into a [UserResponse] followed by [.Data]
    ([Err] carries the decoder's message). *)
Record Codec (Time : Type) : Type := mkCodec {
  formatRFC3339 : Time -> string;
  parseJSON : string -> option json;
  unmarshalUserResponse : string -> result (User Time)
}.
Arguments mkCodec {Time}.
Arguments formatRFC3339 {Time}. Arguments parseJSON {Time}.
Arguments unmarshalUserResponse {Time}.

(** ** users.go *)

Module Users.
Section Users.
Context {Time : Type} (codec : Codec Time) (c : Client).

(** GetUser retrieves a user by ID *)
Definition GetUser (id : string) : M (result (User Time)) :=
  r <- doRequest (parseJSON codec) c MethodGet ("/users/" ++ id) None ;;
  match r with
  | Err err => ret (Err err)
  | Ok body =>
      match unmarshalUserResponse codec body with
      | Err err => ret (Err ("failed to unmarshal user response: " ++ err))
      | Ok u => ret (Ok u)
      end
  end.

(** GetUserByEmail retrieves a user by email *)
Definition GetUserByEmail (email : string) : M (result (User Time)) :=
  GetUser email.

(** CreateUser creates a new user *)
Definition CreateUser (req : CreateUserRequest) : M (result (User Time)) :=
  r <- doRequest (parseJSON codec) c MethodPost "/users" (Some (BodyCreateUser req)) ;;
  match r with
  | Err err => ret (Err err)
  | Ok body =>
      match unmarshalUserResponse codec body with
      | Err err => ret (Err ("failed to unmarshal create user response: " ++ err))
      | Ok u => ret (Ok u)
      end
  end.

(** UpdateUserRole updates a user's role; [None] is a nil error. *)
Definition UpdateUserRole (id newRole : string) : M (option string) :=
  r <- doRequest (parseJSON codec) c MethodPatch ("/users/" ++ id ++ "/role")
         (Some (BodyUpdateUserRole newRole)) ;;
  match r with
  | Err err => ret (Some err)
  | Ok _ => ret None
  end.

(** DeleteUser deletes a user *)
Definition DeleteUser (id : string) : M (option string) :=
  r <- doRequest (parseJSON codec) c MethodDelete ("/users/" ++ id) None ;;
  match r with
  | Err err => ret (Some err)
  | Ok _ => ret None
  end.

End Users.
End Users.

(** ** terraform-plugin-framework values and diagnostics *)

(** [types.String], [types.Bool], [types.Int64]. *)
Inductive tfString : Type := StringNull | StringUnknown | StringValue (s : string).
Inductive tfBool : Type := BoolNull | BoolUnknown | BoolValue (b : bool).
Inductive tfInt64 : Type := Int64Null | Int64Unknown | Int64Value (z : Z).

Definition IsNull (v : tfString) : bool :=
  match v with StringNull => true | _ => false end.
Definition IsUnknown (v : tfString) : bool :=
  match v with StringUnknown => true | _ => false end.
(** [ValueString] is the zero value for null and unknown. *)
Definition ValueString (v : tfString) : string :=
  match v with StringValue s => s | _ => EmptyString end.

Definition Int64IsNull (v : tfInt64) : bool :=
  match v with Int64Null => true | _ => false end.
Definition ValueInt64 (v : tfInt64) : Z :=
  match v with Int64Value z => z | _ => 0 end.

(** An error diagnostic, with the attribute path for [AddAttributeError]. *)
Record Diagnostic : Type := mkDiagnostic {
  dPath : option string;
  dSummary : string;
  dDetail : string
}.

Definition AddError (summary detail : string) : Diagnostic :=
  mkDiagnostic None summary detail.
Definition AddAttributeError (p summary detail : string) : Diagnostic :=
  mkDiagnostic (Some p) summary detail.

(** Every diagnostic the code adds is an error. *)
Definition HasError (ds : list Diagnostic) : bool :=
  match ds with [] => false | _ => true end.

(** [types.StringValue] of the pointee, or [types.StringNull()] for nil. *)
Definition stringFromPtr (p : option string) : tfString :=
  match p with Some s => StringValue s | None => StringNull end.

(** [types.StringValue(s)] when [s != ""], else [types.StringNull()]. *)
Definition stringNonEmpty (s : string) : tfString :=
  if String.eqb s EmptyString then StringNull else StringValue s.

(** ** user_resource.go *)

(** UserResourceModel describes the resource data model. *)
Record UserResourceModel : Type := mkUserResourceModel {
  rm_ID : tfString;
  rm_Email : tfString;
  rm_Role : tfString;
  rm_FirstName : tfString;
  rm_LastName : tfString;
  rm_IsPending : tfBool;
  rm_CreatedAt : tfString;
  rm_UpdatedAt : tfString;
  rm_InviteAcceptURL : tfString
}.

(** What a lifecycle method leaves in its response: the diagnostics it
    added and the model it stored with [resp.State.Set] ([None] when the
    method returned without calling it). *)
Record ResourceResponse : Type := mkResourceResponse {
  Diagnostics : list Diagnostic;
  StateSet : option UserResourceModel
}.

(** ImportState's response: diagnostics and the [SetAttribute] calls, in
    order, as (attribute, value). *)
Record ImportResponse : Type := mkImportResponse {
  ImportDiagnostics : list Diagnostic;
  AttributesSet : list (string * string)
}.

Definition ClientError (detail : string) : Diagnostic :=
  AddError "Client Error" detail.

Module UserResource.
Section UserResource.
Context {Time : Type} (codec : Codec Time) (c : Client).

Definition Create (data : UserResourceModel) : M ResourceResponse :=
  let createReq := mkCreateUserRequest (ValueString (rm_Email data))
                     (ValueString (rm_Role data)) EmptyString EmptyString in
  r <- Users.CreateUser codec c createReq ;;
  match r with
  | Err err =>
      ret (mkResourceResponse
             [ClientError ("Unable to create user, got error: " ++ err)] None)
  | Ok user =>
      ret (mkResourceResponse [] (Some {|
        rm_ID := StringValue (ID user);
        rm_Email := rm_Email data;
        rm_Role := if String.eqb (Role user) EmptyString then rm_Role data
                   else StringValue (Role user);
        rm_FirstName := stringFromPtr (FirstName user);
        rm_LastName := stringFromPtr (LastName user);
        rm_IsPending := BoolValue (IsPending user);
        rm_CreatedAt := StringValue (formatRFC3339 codec (CreatedAt user));
        rm_UpdatedAt := StringValue (formatRFC3339 codec (UpdatedAt user));
        rm_InviteAcceptURL := stringNonEmpty (InviteAcceptUrl user) |}))
  end.

(** [data] is the prior state. *)
Definition Read (data : UserResourceModel) : M ResourceResponse :=
  r <- Users.GetUser codec c (ValueString (rm_ID data)) ;;
  match r with
  | Err err =>
      ret (mkResourceResponse
             [ClientError ("Unable to read user, got error: " ++ err)] None)
  | Ok user =>
      ret (mkResourceResponse [] (Some {|
        rm_ID := rm_ID data;
        rm_Email := StringValue (Email user);
        rm_Role := if String.eqb (Role user) EmptyString then rm_Role data
                   else StringValue (Role user);
        rm_FirstName := stringFromPtr (FirstName user);
        rm_LastName := stringFromPtr (LastName user);
        rm_IsPending := BoolValue (IsPending user);
        rm_CreatedAt := StringValue (formatRFC3339 codec (CreatedAt user));
        rm_UpdatedAt := StringValue (formatRFC3339 codec (UpdatedAt user));
        rm_InviteAcceptURL := stringNonEmpty (InviteAcceptUrl user) |}))
  end.

(** [data] is the plan. *)
Definition Update (data : UserResourceModel) : M ResourceResponse :=
  e <- Users.UpdateUserRole codec c (ValueString (rm_ID data)) (ValueString (rm_Role data)) ;;
  match e with
  | Some err =>
      ret (mkResourceResponse
             [ClientError ("Unable to update user role, got error: " ++ err)] None)
  | None =>
      r <- Users.GetUser codec c (ValueString (rm_ID data)) ;;
      match r with
      | Err err =>
          ret (mkResourceResponse
                 [ClientError ("Unable to read updated user, got error: " ++ err)] None)
      | Ok user =>
          ret (mkResourceResponse [] (Some {|
            rm_ID := rm_ID data;
            rm_Email := rm_Email data;
            rm_Role := rm_Role data;
            rm_FirstName := rm_FirstName data;
            rm_LastName := rm_LastName data;
            rm_IsPending := rm_IsPending data;
            rm_CreatedAt := rm_CreatedAt data;
            rm_UpdatedAt := StringValue (formatRFC3339 codec (UpdatedAt user));
            rm_InviteAcceptURL := rm_InviteAcceptURL data |}))
      end
  end.

(** Delete never calls [resp.State.Set]; only its diagnostics are modelled. *)
Definition Delete (data : UserResourceModel) : M (list Diagnostic) :=
  e <- Users.DeleteUser codec c (ValueString (rm_ID data)) ;;
  match e with
  | Some err => ret [ClientError ("Unable to delete user, got error: " ++ err)]
  | None => ret []
  end.

(** [reqID] is [req.ID], the identifier given to [terraform import]. *)
Definition ImportState (reqID : string) : M ImportResponse :=
  let email := reqID in
  r <- Users.GetUser codec c email ;;
  match r with
  | Err err =>
      ret (mkImportResponse
             [ClientError ("Unable to get user by email " ++ email ++ ", got error: " ++ err)] [])
  | Ok user => ret (mkImportResponse [] [("id", ID user); ("email", Email user)])
  end.

End UserResource.
End UserResource.

(** ** user_data_source.go *)

(** UserDataSourceModel describes the data source data model. *)
Record UserDataSourceModel : Type := mkUserDataSourceModel {
  ds_ID : tfString;
  ds_Email : tfString;
  ds_Role : tfString;
  ds_FirstName : tfString;
  ds_LastName : tfString;
  ds_IsPending : tfBool;
  ds_CreatedAt : tfString;
  ds_UpdatedAt : tfString;
  ds_InviteAcceptURL : tfString
}.

Record DataSourceResponse : Type := mkDataSourceResponse {
  DsDiagnostics : list Diagnostic;
  DsStateSet : option UserDataSourceModel
}.

Definition MissingAttribute : Diagnostic :=
  AddError "Missing Attribute" "Either 'id' or 'email' must be specified".

Module UserDataSource.
Section UserDataSource.
Context {Time : Type} (codec : Codec Time) (c : Client).

(** [data] is the configuration. *)
Definition Read (data : UserDataSourceModel) : M DataSourceResponse :=
  if IsNull (ds_ID data) && IsNull (ds_Email data) then
    ret (mkDataSourceResponse [MissingAttribute] None)
  else
    r <- (if negb (IsNull (ds_ID data))
          then Users.GetUser codec c (ValueString (ds_ID data))
          else Users.GetUserByEmail codec c (ValueString (ds_Email data))) ;;
    match r with
    | Err err =>
        ret (mkDataSourceResponse
               [ClientError ("Unable to read user, got error: " ++ err)] None)
    | Ok user =>
        ret (mkDataSourceResponse [] (Some {|
          ds_ID := StringValue (ID user);
          ds_Email := StringValue (Email user);
          ds_Role := match GlobalRole user with
                     | Some g => StringValue (Name g)
                     | None => StringNull
                     end;
          ds_FirstName := stringFromPtr (FirstName user);
          ds_LastName := stringFromPtr (LastName user);
          ds_IsPending := BoolValue (IsPending user);
          ds_CreatedAt := StringValue (formatRFC3339 codec (CreatedAt user));
          ds_UpdatedAt := StringValue (formatRFC3339 codec (UpdatedAt user));
          ds_InviteAcceptURL := stringNonEmpty (InviteAcceptUrl user) |}))
    end.

End UserDataSource.
End UserDataSource.

(** ** client.go: NewClient *)

(** Config holds the configuration for the client ([Timeout] in ns). *)
Record Config : Type := mkConfig {
  BaseURL : string;
  APIKey : string;
  Timeout : Z
}.

(** [30 * time.Second] *)
Definition defaultTimeout : Z := 30 * 1000000000.

(** NewClient creates a new n8n API client. *)
Definition NewClient (config : Config) : result Client :=
  if String.eqb (BaseURL config) EmptyString then Err "base URL is required"
  else if String.eqb (APIKey config) EmptyString then Err "API key is required"
  else
    let timeout := if Timeout config =? 0 then defaultTimeout else Timeout config in
    Ok (mkClient (BaseURL config) (APIKey config) timeout).

(** ** provider.go: N8nCloudProvider.Configure *)

(** N8nCloudProviderModel describes the provider data model. *)
Record N8nCloudProviderModel : Type := mkN8nCloudProviderModel {
  pm_APIKey : tfString;
  pm_InstanceURL : tfString;
  pm_Timeout : tfInt64
}.

(** Configure's response: its diagnostics and the client it hands to
    resources and data sources ([resp.DataSourceData] and
    [resp.ResourceData] are set to the same value). *)
Record ConfigureResponse : Type := mkConfigureResponse {
  CfgDiagnostics : list Diagnostic;
  ProviderData : option Client
}.

Module N8nCloudProvider.

Definition unknownAPIKey : Diagnostic :=
  AddAttributeError "api_key" "Unknown n8n Cloud API Key"
    ("The provider cannot create the n8n Cloud API client as there is an unknown configuration value for the n8n Cloud API key. " ++
     "Either target apply the source of the value first, set the value statically in the configuration, or use the N8N_API_KEY environment variable.").

Definition unknownInstanceURL : Diagnostic :=
  AddAttributeError "instance_url" "Unknown n8n Cloud Instance URL"
    ("The provider cannot create the n8n Cloud API client as there is an unknown configuration value for the n8n Cloud instance URL. " ++
     "Either target apply the source of the value first, set the value statically in the configuration, or use the N8N_INSTANCE_URL environment variable.").

Definition missingAPIKey : Diagnostic :=
  AddAttributeError "api_key" "Missing n8n Cloud API Key"
    ("The provider cannot create the n8n Cloud API client as there is a missing or empty value for the n8n Cloud API key. " ++
     "Set the api_key value in the configuration or use the N8N_API_KEY environment variable. " ++
     "If either is already set, ensure the value is not empty.").

Definition missingInstanceURL : Diagnostic :=
  AddAttributeError "instance_url" "Missing n8n Cloud Instance URL"
    ("The provider cannot create the n8n Cloud API client as there is a missing or empty value for the n8n Cloud instance URL. " ++
     "Set the instance_url value in the configuration or use the N8N_INSTANCE_URL environment variable. " ++
     "If either is already set, ensure the value is not empty.").

(** [getenv] is [os.Getenv] (the empty string for an unset variable);
    [data] is the provider configuration. *)
Definition Configure (getenv : string -> string) (data : N8nCloudProviderModel)
  : ConfigureResponse :=
  let diags1 :=
    ((if IsUnknown (pm_APIKey data) then [unknownAPIKey] else []) ++
     (if IsUnknown (pm_InstanceURL data) then [unknownInstanceURL] else []))%list in
  if HasError diags1 then mkConfigureResponse diags1 None else
  let apiKey := if negb (IsNull (pm_APIKey data)) then ValueString (pm_APIKey data)
                else getenv "N8N_API_KEY" in
  let instanceURL := if negb (IsNull (pm_InstanceURL data))
                     then ValueString (pm_InstanceURL data)
                     else getenv "N8N_INSTANCE_URL" in
  let timeout := if negb (Int64IsNull (pm_Timeout data))
                 then ValueInt64 (pm_Timeout data) else 30 in
  let diags2 :=
    ((if String.eqb apiKey EmptyString then [missingAPIKey] else []) ++
     (if String.eqb instanceURL EmptyString then [missingInstanceURL] else []))%list in
  if HasError diags2 then mkConfigureResponse diags2 None else
  let clientConfig := mkConfig instanceURL apiKey (wrap64 (timeout * 1000000000)) in
  match NewClient clientConfig with
  | Err err =>
      mkConfigureResponse
        [AddError "Unable to create n8n Cloud API Client"
           ("An unexpected error occurred when creating the n8n Cloud API client: " ++ err)]
        None
  | Ok apiClient => mkConfigureResponse [] (Some apiClient)
  end.

End N8nCloudProvider.

(** ** users.go: ListUsers *)

(** UsersResponse represents the response from the list users endpoint *)
Record UsersResponse (Time : Type) : Type := mkUsersResponse {
  Data : list (User Time);
  NextCursor : option string
}.
Arguments mkUsersResponse {Time}.
Arguments Data {Time}. Arguments NextCursor {Time}.

Section ListUsers.
Context {Time : Type} (codec : Codec Time)
  (unmarshalUsersResponse : string -> result (UsersResponse Time)) (c : Client).

(** ListUsers retrieves all users from the n8n instance.
    [unmarshalUsersResponse] is [json.Unmarshal] into a [UsersResponse]. *)
Definition ListUsers : M (result (list (User Time))) :=
  r <- doRequest (parseJSON codec) c MethodGet "/users" None ;;
  match r with
  | Err err => ret (Err err)
  | Ok body =>
      match unmarshalUsersResponse body with
      | Err err => ret (Err ("failed to unmarshal users response: " ++ err))
      | Ok resp => ret (Ok (Data resp))
      end
  end.

End ListUsers.

(** The value [storeErrorField] leaves in one [ErrorResponse] field after
    the members [kvs], starting from the zero value: the last string-valued
    member whose key matches [tag], as [encoding/json] does. *)
Definition lastStep (tag acc : string) (kv : string * json) : string :=
  if key_matches (fst kv) tag
  then match snd kv with JString s => s | _ => acc end
  else acc.

Definition lastStringMember (tag : string) (kvs : list (string * json)) : string :=
  fold_left (lastStep tag) kvs EmptyString.

(** A request the provider is allowed to send with client [c]: it carries
    the client's API key and targets the users collection of its instance. *)
Definition usersRequest (c : Client) (req : Request) : bool :=
  String.eqb (rq_apiKey req) (apiKey c) &&
  prefix (baseURL c ++ "/api/v1/users") (rq_url req).

(** ** A concrete environment for running the code *)

Module Example.

(** The double-quote character, to write JSON text. *)
Definition dq : string := String (ascii_of_nat 34) EmptyString.
Definition q (s : string) : string := dq ++ s ++ dq.

(** Timestamps already in RFC 3339 form. *)
Definition T : Type := string.

Definition notFoundBody : string :=
  "{" ++ q "code" ++ ":" ++ q "404" ++ "," ++ q "message" ++ ":" ++ q "Not Found" ++ "}".

Definition userBody : string :=
  "{" ++ q "data" ++ ":{" ++ q "id" ++ ":" ++ q "u1" ++ "," ++
  q "email" ++ ":" ++ q "a@x.com" ++ "}}".

(** The same user, with no role in the JSON ([omitempty] on the Go side). *)
Definition alice : User T :=
  mkUser "u1" "a@x.com" None None true "2026-01-01T00:00:00Z"
    "2026-01-02T00:00:00Z" EmptyString None "https://n8n.example/invite/u1".

Definition parse (s : string) : option json :=
  if String.eqb s notFoundBody
  then Some (JObject [("code", JString "404"); ("message", JString "Not Found")])
  else if String.eqb s userBody
  then Some (JObject [("data", JObject [("id", JString "u1"); ("email", JString "a@x.com")])])
  else None.

Definition codec : Codec T :=
  mkCodec (fun t => t) parse
    (fun s => if String.eqb s userBody then Ok alice
              else Err "unexpected end of JSON input").

Definition client : Client := mkClient "https://n8n.example" "key" defaultTimeout.

Definition api (path : string) : string := baseURL client ++ "/api/v1" ++ path.

(** An instance that knows the single user [alice], under her id or email. *)
Definition server : Server :=
  fun _ req =>
    match rq_method req with
    | MethodGet =>
        if String.eqb (rq_url req) (api "/users/u1")
           || String.eqb (rq_url req) (api "/users/a@x.com")
        then Response 200 userBody else Response 404 notFoundBody
    | MethodPost => Response 201 userBody
    | MethodPatch => Response 200 EmptyString
    | MethodDelete => Response 204 EmptyString
    end.

(** A data-source configuration: [id] and [email], the computed
    attributes unset. *)
Definition dsConfig (id email : tfString) : UserDataSourceModel :=
  mkUserDataSourceModel id email StringNull StringNull StringNull BoolNull
    StringNull StringNull StringNull.

(** A resource plan with the given id, email and role. *)
Definition plan (id email role : tfString) : UserResourceModel :=
  mkUserResourceModel id email role StringUnknown StringUnknown BoolUnknown
    StringUnknown StringUnknown StringUnknown.

(** Plans for Create and Update, and the states the code stores for them
    against [server]. *)
Definition createPlan : UserResourceModel :=
  plan StringUnknown (StringValue "a@x.com") (StringValue "global:member").

Definition created : UserResourceModel :=
  mkUserResourceModel (StringValue "u1") (StringValue "a@x.com")
    (StringValue "global:member") StringNull StringNull (BoolValue true)
    (StringValue "2026-01-01T00:00:00Z") (StringValue "2026-01-02T00:00:00Z")
    (StringValue "https://n8n.example/invite/u1").

Definition updatePlan : UserResourceModel :=
  plan (StringValue "u1") (StringValue "a@x.com") (StringValue "global:admin").

Definition updated : UserResourceModel :=
  mkUserResourceModel (StringValue "u1") (StringValue "a@x.com")
    (StringValue "global:admin") StringUnknown StringUnknown BoolUnknown
    StringUnknown (StringValue "2026-01-02T00:00:00Z") StringUnknown.

End Example.

(** A second instance, less cooperative: it serves the user list, rejects
    role changes and deletes, and reports errors with a numeric [code] or an unrelated
    object. *)
Module Example2.
Import Example.

Definition numericCodeBody : string :=
  "{" ++ q "code" ++ ":404," ++ q "message" ++ ":" ++ q "Not Found" ++ "}".

Definition otherErrorBody : string := "{" ++ q "error" ++ ":" ++ q "boom" ++ "}".

Definition parse2 (s : string) : option json :=
  if String.eqb s numericCodeBody
  then Some (JObject [("code", JNumber "404"); ("message", JString "Not Found")])
  else if String.eqb s otherErrorBody
  then Some (JObject [("error", JString "boom")])
  else parse s.

Definition codec2 : Codec T :=
  mkCodec (fun t => t) parse2 (unmarshalUserResponse codec).

Definition server2 : Server :=
  fun tr req =>
    match rq_method req with
    | MethodGet =>
        if String.eqb (rq_url req) (api "/users") then Response 200 userBody
        else server tr req
    | MethodPatch => Response 403 otherErrorBody
    | MethodDelete => Response 404 numericCodeBody
    | _ => server tr req
    end.

(** The list endpoint's decoder: one page holding [alice], with a cursor. *)
(** The rune U+017F (long s) in UTF-8, which [encoding/json] folds to [s]. *)
Definition longS : string := String (ascii_of_nat 197) (String (ascii_of_nat 191) EmptyString).

Definition unmarshalUsers (s : string) : result (UsersResponse T) :=
  if String.eqb s userBody then Ok (mkUsersResponse [alice] (Some "next"))
  else Err "unexpected end of JSON input".

End Example2.

(** * Theorems *)

Lemma bind_run {A B} (m : M A) (k : A -> M B) srv tr :
  bind m k srv tr = k (fst (m srv tr)) srv (snd (m srv tr)).
Proof. unfold bind. destruct (m srv tr). reflexivity. Qed.

Lemma prefix_app (a y : string) : prefix a (a ++ y) = true.
Proof.
  induction a as [|ch a IH]; simpl.
  - destruct y; reflexivity.
  - destruct (ascii_dec ch ch) as [_|n]; [exact IH | congruence].
Qed.

Lemma contains_prefix (a s : string) : prefix a s = true -> contains a s = true.
Proof. intros H. destruct s; cbn [contains]; rewrite H; reflexivity. Qed.

Lemma contains_app (x a y : string) : contains a (x ++ a ++ y) = true.
Proof.
  induction x as [|ch x IH].
  - change (contains a (a ++ y) = true). apply contains_prefix, prefix_app.
  - cbn [contains append]. rewrite IH, orb_true_r. reflexivity.
Qed.

Lemma doRequest_trace p c m path b srv tr :
  snd (doRequest p c m path b srv tr)
  = (tr ++ [mkRequest m (baseURL c ++ "/api/v1" ++ path) (apiKey c) b])%list.
Proof. reflexivity. Qed.

Lemma doRequest_result p c m path b srv tr :
  fst (doRequest p c m path b srv tr)
  = classify p (srv tr (mkRequest m (baseURL c ++ "/api/v1" ++ path) (apiKey c) b)).
Proof. reflexivity. Qed.

Section ClientFacts.
Context {Time : Type} (codec : Codec Time) (c : Client).

Lemma GetUser_trace id srv tr :
  snd (Users.GetUser codec c id srv tr)
  = (tr ++ [mkRequest MethodGet (baseURL c ++ "/api/v1" ++ "/users/" ++ id) (apiKey c) None])%list.
Proof.
  unfold Users.GetUser. rewrite bind_run, doRequest_trace.
  destruct (fst _) as [body|err]; [destruct (unmarshalUserResponse codec body)|];
    reflexivity.
Qed.

Lemma CreateUser_trace req srv tr :
  snd (Users.CreateUser codec c req srv tr)
  = (tr ++ [mkRequest MethodPost (baseURL c ++ "/api/v1" ++ "/users") (apiKey c)
              (Some (BodyCreateUser req))])%list.
Proof.
  unfold Users.CreateUser. rewrite bind_run, doRequest_trace.
  destruct (fst _) as [body|err]; [destruct (unmarshalUserResponse codec body)|];
    reflexivity.
Qed.

Lemma UpdateUserRole_trace id role srv tr :
  snd (Users.UpdateUserRole codec c id role srv tr)
  = (tr ++ [mkRequest MethodPatch (baseURL c ++ "/api/v1" ++ "/users/" ++ id ++ "/role")
              (apiKey c) (Some (BodyUpdateUserRole role))])%list.
Proof.
  unfold Users.UpdateUserRole. rewrite bind_run, doRequest_trace.
  destruct (fst _); reflexivity.
Qed.

Lemma DeleteUser_trace id srv tr :
  snd (Users.DeleteUser codec c id srv tr)
  = (tr ++ [mkRequest MethodDelete (baseURL c ++ "/api/v1" ++ "/users/" ++ id) (apiKey c) None])%list.
Proof.
  unfold Users.DeleteUser. rewrite bind_run, doRequest_trace.
  destruct (fst _); reflexivity.
Qed.

End ClientFacts.

Lemma prefix_refl (a : string) : prefix a a = true.
Proof.
  induction a as [|ch a IH]; simpl; [reflexivity|].
  destruct (ascii_dec ch ch) as [_|n]; [exact IH | congruence].
Qed.

Lemma contains_refl (a : string) : contains a a = true.
Proof. apply contains_prefix, prefix_refl. Qed.

Lemma contains_app_l (x s a : string) :
  contains a s = true -> contains a (x ++ s) = true.
Proof.
  intros H. induction x as [|ch x IH]; [exact H|].
  cbn [contains append]. rewrite IH, orb_true_r. reflexivity.
Qed.

(** C10: [GetUserByEmail] is [GetUser]: on every string [s], from every
    trace and against every server, the two return the same result and
    trace, and the one request they issue is GET [{baseURL}/api/v1/users/{s}]. *)
Theorem GetUserByEmail_is_GetUser {Time} (codec : Codec Time) c s srv tr :
  Users.GetUserByEmail codec c s srv tr = Users.GetUser codec c s srv tr /\
  snd (Users.GetUserByEmail codec c s srv tr)
  = (tr ++ [mkRequest MethodGet (baseURL c ++ "/api/v1" ++ "/users/" ++ s) (apiKey c) None])%list.
Proof. split; [reflexivity | apply GetUser_trace]. Qed.

(** C6: for a request answered with status [status] and body [respBody]:
    at [status >= 400] a body that decodes as an [ErrorResponse] gives the
    error [API error: <code> - <message>], carrying the decoded code and
    message; a body that does not decode gives [HTTP <status>: <body>],
    carrying the decimal status and the raw body; below 400 the raw body is
    returned without error. *)
Theorem doRequest_error_classification p c m path b srv tr status respBody
  (Hresp : srv tr (mkRequest m (baseURL c ++ "/api/v1" ++ path) (apiKey c) b)
           = Response status respBody) :
  (400 <= status -> forall e, unmarshalErrorResponse p respBody = Some e ->
     exists msg, fst (doRequest p c m path b srv tr) = Err msg /\
       msg = "API error: " ++ Code e ++ " - " ++ Message e /\
       contains (Code e) msg = true /\ contains (Message e) msg = true) /\
  (400 <= status -> unmarshalErrorResponse p respBody = None ->
     exists msg, fst (doRequest p c m path b srv tr) = Err msg /\
       msg = "HTTP " ++ itoa status ++ ": " ++ respBody /\
       contains (itoa status) msg = true /\ contains respBody msg = true) /\
  (status < 400 -> fst (doRequest p c m path b srv tr) = Ok respBody).
Proof.
  rewrite doRequest_result, Hresp. cbn [classify].
  split; [|split].
  - intros Hs e He. apply Z.leb_le in Hs. rewrite Hs, He.
    eexists; split; [reflexivity|]. split; [reflexivity|]. split.
    + apply contains_app.
    + do 3 apply contains_app_l. apply contains_refl.
  - intros Hs He. apply Z.leb_le in Hs. rewrite Hs, He.
    eexists; split; [reflexivity|]. split; [reflexivity|]. split.
    + apply contains_app.
    + do 3 apply contains_app_l. apply contains_refl.
  - intros Hs. replace (400 <=? status) with false by (symmetry; apply Z.leb_gt; lia).
    reflexivity.
Qed.

(** A GET for an unknown user against [Example.server] fails with the
    server's code and message. *)
Lemma doRequest_error_classification_witness :
  fst (doRequest Example.parse Example.client MethodGet "/users/nobody" None
         Example.server []) = Err "API error: 404 - Not Found".
Proof.
  destruct (doRequest_error_classification Example.parse Example.client MethodGet
              "/users/nobody" None Example.server [] 404 Example.notFoundBody
              ltac:(reflexivity)) as [H _].
  destruct (H ltac:(lia) (mkErrorResponse "404" "Not Found" EmptyString)
              ltac:(reflexivity)) as (msg & Hr & Hm & _).
  rewrite Hr, Hm. reflexivity.
Defined.

Section ResourceFacts.
Context {Time : Type} (codec : Codec Time) (c : Client).

(** C3: a successful Update (one that stores a state) first issues the
    role PATCH and then a GET of the same id, and the stored state is the
    plan with only [updated_at] taken from the re-fetched user. *)
Theorem Update_refreshes_only_updated_at data srv tr m
  (Hok : StateSet (fst (UserResource.Update codec c data srv tr)) = Some m) :
  let id := ValueString (rm_ID data) in
  let patch := mkRequest MethodPatch (baseURL c ++ "/api/v1" ++ "/users/" ++ id ++ "/role")
                 (apiKey c) (Some (BodyUpdateUserRole (ValueString (rm_Role data)))) in
  let get := mkRequest MethodGet (baseURL c ++ "/api/v1" ++ "/users/" ++ id) (apiKey c) None in
  exists user,
    fst (Users.UpdateUserRole codec c id (ValueString (rm_Role data)) srv tr) = None /\
    fst (Users.GetUser codec c id srv (tr ++ [patch])%list) = Ok user /\
    snd (UserResource.Update codec c data srv tr) = (tr ++ [patch; get])%list /\
    Diagnostics (fst (UserResource.Update codec c data srv tr)) = [] /\
    m = {| rm_ID := rm_ID data;
           rm_Email := rm_Email data;
           rm_Role := rm_Role data;
           rm_FirstName := rm_FirstName data;
           rm_LastName := rm_LastName data;
           rm_IsPending := rm_IsPending data;
           rm_CreatedAt := rm_CreatedAt data;
           rm_UpdatedAt := StringValue (formatRFC3339 codec (UpdatedAt user));
           rm_InviteAcceptURL := rm_InviteAcceptURL data |}.
Proof.
  intros id patch get.
  unfold UserResource.Update in *. rewrite bind_run in *. fold id in Hok |- *.
  destruct (fst (Users.UpdateUserRole codec c id (ValueString (rm_Role data)) srv tr))
    as [err|] eqn:E1; [discriminate Hok|].
  rewrite bind_run in *.
  rewrite UpdateUserRole_trace in Hok |- *. fold patch in Hok |- *.
  destruct (fst (Users.GetUser codec c id srv (tr ++ [patch])%list))
    as [user|err] eqn:E2; [|discriminate Hok].
  cbn in Hok. injection Hok as <-.
  exists user. split; [reflexivity|]. split; [reflexivity|].
  split; [|split; reflexivity].
  cbn [ret snd]. rewrite GetUser_trace, <- app_assoc. reflexivity.
Qed.

(** C4 (as the code has it): a successful Create stores [id],
    [is_pending], [created_at] and [updated_at] from the created user,
    [first_name] and [last_name] from it (null when absent),
    [invite_accept_url] from it (null when empty), keeps the planned
    [email], and takes [role] from the response only when the response's
    role is non-empty, keeping the planned role otherwise. *)
Theorem Create_populates_from_response data srv tr m
  (Hok : StateSet (fst (UserResource.Create codec c data srv tr)) = Some m) :
  exists user,
    fst (Users.CreateUser codec c
           (mkCreateUserRequest (ValueString (rm_Email data)) (ValueString (rm_Role data))
              EmptyString EmptyString) srv tr) = Ok user /\
    rm_ID m = StringValue (ID user) /\
    rm_Email m = rm_Email data /\
    rm_IsPending m = BoolValue (IsPending user) /\
    rm_CreatedAt m = StringValue (formatRFC3339 codec (CreatedAt user)) /\
    rm_UpdatedAt m = StringValue (formatRFC3339 codec (UpdatedAt user)) /\
    rm_FirstName m = stringFromPtr (FirstName user) /\
    rm_LastName m = stringFromPtr (LastName user) /\
    (InviteAcceptUrl user <> EmptyString -> rm_InviteAcceptURL m = StringValue (InviteAcceptUrl user)) /\
    (InviteAcceptUrl user = EmptyString -> rm_InviteAcceptURL m = StringNull) /\
    (Role user <> EmptyString -> rm_Role m = StringValue (Role user)) /\
    (Role user = EmptyString -> rm_Role m = rm_Role data).
Proof.
  unfold UserResource.Create in *. rewrite bind_run in *.
  destruct (fst (Users.CreateUser codec c
             (mkCreateUserRequest (ValueString (rm_Email data)) (ValueString (rm_Role data))
                EmptyString EmptyString) srv tr)) as [user|err] eqn:E; [|discriminate Hok].
  cbn in Hok. injection Hok as <-.
  exists user. cbn. unfold stringNonEmpty.
  repeat split; try reflexivity.
  - intros Hn. destruct (String.eqb_spec (InviteAcceptUrl user) EmptyString); congruence.
  - intros ->. reflexivity.
  - intros Hn. destruct (String.eqb_spec (Role user) EmptyString); congruence.
  - intros ->. reflexivity.
Qed.

(** C8: import issues exactly one request, GET [/users/{import id}]; when
    it succeeds (no diagnostics) the only attributes written are [id] and
    [email], taken from the user the lookup returned. *)
Theorem ImportState_seeds_id_and_email reqID srv tr
  (Hok : ImportDiagnostics (fst (UserResource.ImportState codec c reqID srv tr)) = []) :
  exists user,
    snd (UserResource.ImportState codec c reqID srv tr)
    = (tr ++ [mkRequest MethodGet (baseURL c ++ "/api/v1" ++ "/users/" ++ reqID) (apiKey c) None])%list /\
    fst (Users.GetUser codec c reqID srv tr) = Ok user /\
    AttributesSet (fst (UserResource.ImportState codec c reqID srv tr))
    = [("id", ID user); ("email", Email user)].
Proof.
  unfold UserResource.ImportState in *. rewrite bind_run in *.
  destruct (fst (Users.GetUser codec c reqID srv tr)) as [user|err] eqn:E;
    [|discriminate Hok].
  exists user. cbn [ret fst snd]. rewrite GetUser_trace. repeat split; reflexivity.
Qed.

(** C9: with both [id] and [email] non-null, the data-source read raises
    no "Missing Attribute" error, issues the single request GET
    [/users/{id}] (the configured email is not used), and a stored state's
    email is the one the server returned. *)
Theorem DataSourceRead_both_uses_id data srv tr
  (Hid : IsNull (ds_ID data) = false) (Hemail : IsNull (ds_Email data) = false) :
  ~ In MissingAttribute (DsDiagnostics (fst (UserDataSource.Read codec c data srv tr))) /\
  snd (UserDataSource.Read codec c data srv tr)
  = (tr ++ [mkRequest MethodGet (baseURL c ++ "/api/v1" ++ "/users/" ++ ValueString (ds_ID data))
              (apiKey c) None])%list /\
  (forall m, DsStateSet (fst (UserDataSource.Read codec c data srv tr)) = Some m ->
     exists user, fst (Users.GetUser codec c (ValueString (ds_ID data)) srv tr) = Ok user /\
                  ds_Email m = StringValue (Email user)).
Proof.
  unfold UserDataSource.Read. rewrite Hid, Hemail. cbn [andb negb].
  rewrite bind_run.
  destruct (fst (Users.GetUser codec c (ValueString (ds_ID data)) srv tr)) as [user|err] eqn:E;
    cbn [ret fst snd DsDiagnostics DsStateSet];
    (split; [|split; [apply GetUser_trace|]]).
  - intros [].
  - intros m Hm. injection Hm as <-. exists user. split; reflexivity.
  - intros [H|[]]. discriminate H.
  - discriminate.
Qed.

End ResourceFacts.

(** Updating [u1] to admin against [Example.server] issues the PATCH and
    then the GET. *)
Lemma Update_refreshes_only_updated_at_witness :
  StateSet (fst (UserResource.Update Example.codec Example.client Example.updatePlan
                   Example.server [])) = Some Example.updated /\
  snd (UserResource.Update Example.codec Example.client Example.updatePlan Example.server [])
  = [mkRequest MethodPatch (Example.api "/users/u1/role") "key"
       (Some (BodyUpdateUserRole "global:admin"));
     mkRequest MethodGet (Example.api "/users/u1") "key" None].
Proof.
  split; [reflexivity|].
  destruct (Update_refreshes_only_updated_at Example.codec Example.client Example.updatePlan
              Example.server [] Example.updated ltac:(reflexivity)) as (u & _ & _ & H & _).
  exact H.
Defined.

(** Creating [a@x.com] against [Example.server] stores the id the server
    assigned. *)
Lemma Create_populates_from_response_witness :
  StateSet (fst (UserResource.Create Example.codec Example.client Example.createPlan
                   Example.server [])) = Some Example.created /\
  rm_ID Example.created = StringValue "u1".
Proof.
  split; [reflexivity|].
  destruct (Create_populates_from_response Example.codec Example.client Example.createPlan
              Example.server [] Example.created ltac:(reflexivity)) as (u & Hu & Hid & _).
  vm_compute in Hu. injection Hu as <-. exact Hid.
Defined.

(** C4 fails as stated: the server's reply to the create of [a@x.com]
    carries an empty role, and the stored role is the planned
    [global:member], not the role the server returned. *)
Lemma Create_role_not_from_empty_response :
  fst (Users.CreateUser Example.codec Example.client
         (mkCreateUserRequest "a@x.com" "global:member" EmptyString EmptyString)
         Example.server []) = Ok Example.alice /\
  StateSet (fst (UserResource.Create Example.codec Example.client Example.createPlan
                   Example.server [])) = Some Example.created /\
  rm_Role Example.created <> StringValue (Role Example.alice).
Proof. split; [reflexivity|]. split; [reflexivity|discriminate]. Qed.

(** Importing [a@x.com] against [Example.server] writes [id] and [email]. *)
Lemma ImportState_seeds_id_and_email_witness :
  ImportDiagnostics (fst (UserResource.ImportState Example.codec Example.client "a@x.com"
                            Example.server [])) = [] /\
  AttributesSet (fst (UserResource.ImportState Example.codec Example.client "a@x.com"
                        Example.server [])) = [("id", "u1"); ("email", "a@x.com")].
Proof.
  split; [reflexivity|].
  destruct (ImportState_seeds_id_and_email Example.codec Example.client "a@x.com"
              Example.server [] ltac:(reflexivity)) as (u & _ & Hu & H).
  rewrite H. vm_compute in Hu. injection Hu as <-. reflexivity.
Defined.

(** A data source given id [u1] and a different email looks up [u1] only. *)
Lemma DataSourceRead_both_uses_id_witness :
  IsNull (StringValue "u1") = false /\ IsNull (StringValue "b@x.com") = false /\
  snd (UserDataSource.Read Example.codec Example.client
         (Example.dsConfig (StringValue "u1") (StringValue "b@x.com")) Example.server [])
  = [mkRequest MethodGet (Example.api "/users/u1") "key" None].
Proof.
  split; [reflexivity|]. split; [reflexivity|].
  destruct (DataSourceRead_both_uses_id Example.codec Example.client
              (Example.dsConfig (StringValue "u1") (StringValue "b@x.com")) Example.server []
              ltac:(reflexivity) ltac:(reflexivity)) as (_ & H & _).
  exact H.
Defined.

Section FailureFacts.
Context {Time : Type} (codec : Codec Time) (c : Client).

(** C5: in every lifecycle method, a failing client call makes the method
    return one "Client Error" diagnostic carrying the client's error and
    no stored state (Delete stores none in any case, ImportState writes no
    attribute). *)
Theorem client_failure_stores_no_state :
  (forall data srv tr err,
     fst (Users.CreateUser codec c
            (mkCreateUserRequest (ValueString (rm_Email data)) (ValueString (rm_Role data))
               EmptyString EmptyString) srv tr) = Err err ->
     fst (UserResource.Create codec c data srv tr)
     = mkResourceResponse [ClientError ("Unable to create user, got error: " ++ err)] None) /\
  (forall data srv tr err,
     fst (Users.GetUser codec c (ValueString (rm_ID data)) srv tr) = Err err ->
     fst (UserResource.Read codec c data srv tr)
     = mkResourceResponse [ClientError ("Unable to read user, got error: " ++ err)] None) /\
  (forall data srv tr err,
     fst (Users.UpdateUserRole codec c (ValueString (rm_ID data)) (ValueString (rm_Role data))
            srv tr) = Some err ->
     fst (UserResource.Update codec c data srv tr)
     = mkResourceResponse [ClientError ("Unable to update user role, got error: " ++ err)] None) /\
  (forall data srv tr err,
     fst (Users.UpdateUserRole codec c (ValueString (rm_ID data)) (ValueString (rm_Role data))
            srv tr) = None ->
     fst (Users.GetUser codec c (ValueString (rm_ID data)) srv
            (snd (Users.UpdateUserRole codec c (ValueString (rm_ID data))
                    (ValueString (rm_Role data)) srv tr))) = Err err ->
     fst (UserResource.Update codec c data srv tr)
     = mkResourceResponse [ClientError ("Unable to read updated user, got error: " ++ err)] None) /\
  (forall data srv tr err,
     fst (Users.DeleteUser codec c (ValueString (rm_ID data)) srv tr) = Some err ->
     fst (UserResource.Delete codec c data srv tr)
     = [ClientError ("Unable to delete user, got error: " ++ err)]) /\
  (forall data srv tr err,
     IsNull (ds_ID data) = false ->
     fst (Users.GetUser codec c (ValueString (ds_ID data)) srv tr) = Err err ->
     fst (UserDataSource.Read codec c data srv tr)
     = mkDataSourceResponse [ClientError ("Unable to read user, got error: " ++ err)] None) /\
  (forall data srv tr err,
     IsNull (ds_ID data) = true -> IsNull (ds_Email data) = false ->
     fst (Users.GetUserByEmail codec c (ValueString (ds_Email data)) srv tr) = Err err ->
     fst (UserDataSource.Read codec c data srv tr)
     = mkDataSourceResponse [ClientError ("Unable to read user, got error: " ++ err)] None) /\
  (forall reqID srv tr err,
     fst (Users.GetUser codec c reqID srv tr) = Err err ->
     fst (UserResource.ImportState codec c reqID srv tr)
     = mkImportResponse
         [ClientError ("Unable to get user by email " ++ reqID ++ ", got error: " ++ err)] []).
Proof.
  repeat split.
  - intros data srv tr err H. unfold UserResource.Create. rewrite bind_run, H. reflexivity.
  - intros data srv tr err H. unfold UserResource.Read. rewrite bind_run, H. reflexivity.
  - intros data srv tr err H. unfold UserResource.Update. rewrite bind_run, H. reflexivity.
  - intros data srv tr err H1 H2. unfold UserResource.Update. rewrite bind_run, H1.
    cbv beta iota. rewrite bind_run, H2. reflexivity.
  - intros data srv tr err H. unfold UserResource.Delete. rewrite bind_run, H. reflexivity.
  - intros data srv tr err Hid H. unfold UserDataSource.Read. rewrite Hid.
    cbn [andb negb]. rewrite bind_run, H. reflexivity.
  - intros data srv tr err Hid Hem H. unfold UserDataSource.Read. rewrite Hid, Hem.
    cbn [andb negb]. rewrite bind_run, H. reflexivity.
  - intros reqID srv tr err H. unfold UserResource.ImportState. rewrite bind_run, H.
    reflexivity.
Qed.

(** C2 (as the code has it): the data-source read rejects only the
    configuration with neither [id] nor [email]: there it returns the
    "Missing Attribute" diagnostic, stores nothing and issues no request.
    Any configuration with at least one of them, both included, passes the
    check and issues exactly one request, appended to the earlier ones: a
    GET of [/users/{id}], or of [/users/{email}] when [id] is null. *)
Theorem DataSourceRead_rejects_only_neither data srv tr :
  (IsNull (ds_ID data) = true -> IsNull (ds_Email data) = true ->
     UserDataSource.Read codec c data srv tr
     = (mkDataSourceResponse [MissingAttribute] None, tr)) /\
  (IsNull (ds_ID data) && IsNull (ds_Email data) = false ->
     ~ In MissingAttribute (DsDiagnostics (fst (UserDataSource.Read codec c data srv tr))) /\
     snd (UserDataSource.Read codec c data srv tr)
     = (tr ++ [mkRequest MethodGet
                 (baseURL c ++ "/api/v1" ++ "/users/" ++
                  (if negb (IsNull (ds_ID data)) then ValueString (ds_ID data)
                   else ValueString (ds_Email data)))
                 (apiKey c) None])%list).
Proof.
  split.
  - intros Hid Hem. unfold UserDataSource.Read. rewrite Hid, Hem. reflexivity.
  - intros Hb. unfold UserDataSource.Read. rewrite Hb.
    destruct (negb (IsNull (ds_ID data))); unfold Users.GetUserByEmail;
      rewrite bind_run, GetUser_trace;
      destruct (fst (Users.GetUser _ _ _ _ _)); cbn [ret fst snd DsDiagnostics];
      (split; [|reflexivity]).
    all: cbn [In]; intuition discriminate.
Qed.

End FailureFacts.

(** C2 fails as stated: a configuration with both [id] and [email] is not
    "exactly one", yet it gets no diagnostic and one request is sent. *)
Lemma DataSourceRead_both_set_not_rejected :
  DsDiagnostics (fst (UserDataSource.Read Example.codec Example.client
                        (Example.dsConfig (StringValue "u1") (StringValue "b@x.com"))
                        Example.server [])) = [] /\
  length (snd (UserDataSource.Read Example.codec Example.client
                 (Example.dsConfig (StringValue "u1") (StringValue "b@x.com"))
                 Example.server [])) = 1%nat.
Proof. split; reflexivity. Qed.

(** C1: the data-source lookup of the missing id [non-existent-id] fails
    with the transport's message only: it has neither the id nor the
    [User with ID "non-existent-id" not found] text the acceptance test
    expects; and for every string, the lookup by id and the lookup by
    email return the same response, so no message can tell the kind. *)
Theorem DataSourceRead_not_found_message :
  DsDiagnostics (fst (UserDataSource.Read Example.codec Example.client
                        (Example.dsConfig (StringValue "non-existent-id") StringNull)
                        Example.server []))
  = [ClientError "Unable to read user, got error: API error: 404 - Not Found"] /\
  contains ("User with ID " ++ Example.q "non-existent-id" ++ " not found")
    "Unable to read user, got error: API error: 404 - Not Found" = false /\
  contains "non-existent-id"
    "Unable to read user, got error: API error: 404 - Not Found" = false /\
  (forall Time (codec : Codec Time) c s srv tr,
     UserDataSource.Read codec c (Example.dsConfig (StringValue s) StringNull) srv tr
     = UserDataSource.Read codec c (Example.dsConfig StringNull (StringValue s)) srv tr).
Proof.
  split; [reflexivity|]. split; [reflexivity|]. split; [reflexivity|].
  intros. reflexivity.
Qed.

Lemma wrap64_small (z : Z) : 0 <= z < 9223372036854775808 -> wrap64 z = z.
Proof.
  intros Hz. unfold wrap64. rewrite Z.mod_small by lia.
  replace (2 ^ 63 <=? z) with false by (symmetry; apply Z.leb_gt; lia).
  reflexivity.
Qed.

Lemma wrap64_range (z : Z) : -9223372036854775808 <= z < 9223372036854775808 -> wrap64 z = z.
Proof.
  intros Hz. destruct (Z.le_gt_cases 0 z) as [H|H]; [apply wrap64_small; lia|].
  unfold wrap64. cbv zeta.
  rewrite <- (Z.mod_unique z (2 ^ 64) (-1) (z + 2 ^ 64)) by lia.
  replace (2 ^ 63 <=? z + 2 ^ 64) with true by (symmetry; apply Z.leb_le; lia).
  lia.
Qed.



(** ** Further properties of the code *)

Section Decoding.

Lemma key_matches_other k t1 t2 :
  key_matches k t1 = true -> key_matches k t2 = String.eqb (foldName t1) (foldName t2).
Proof. unfold key_matches. intros H. apply String.eqb_eq in H. rewrite H. reflexivity. Qed.

Lemma fold_storeErrorField_None kvs :
  fold_left storeErrorField kvs None = None.
Proof. induction kvs as [|kv kvs IH]; [reflexivity | exact IH]. Qed.

Lemma fold_storeErrorField_strings kvs a b h :
  (forall k v, In (k, v) kvs ->
     key_matches k "code" || key_matches k "message" || key_matches k "hint" = true ->
     (exists s, v = JString s) \/ v = JNull) ->
  fold_left storeErrorField kvs (Some (mkErrorResponse a b h))
  = Some (mkErrorResponse (fold_left (lastStep "code") kvs a)
            (fold_left (lastStep "message") kvs b) (fold_left (lastStep "hint") kvs h)).
Proof.
  revert a b h. induction kvs as [|[k v] kvs IH]; intros a b h Hv; [reflexivity|].
  cbn [fold_left]. unfold lastStep at 2 4 6. cbn [fst snd].
  assert (Hv' : forall k' v', In (k', v') kvs ->
     key_matches k' "code" || key_matches k' "message" || key_matches k' "hint" = true ->
     (exists s, v' = JString s) \/ v' = JNull)
    by (intros k' v' Hin; apply Hv; right; exact Hin).
  assert (Hkv := Hv k v (or_introl eq_refl)).
  unfold storeErrorField.
  destruct (key_matches k "code") eqn:Hc.
  - rewrite (key_matches_other k "code" "message" Hc), (key_matches_other k "code" "hint" Hc).
    cbn. destruct (Hkv eq_refl) as [[s ->]| ->]; apply IH; exact Hv'.
  - destruct (key_matches k "message") eqn:Hm.
    + rewrite (key_matches_other k "message" "hint" Hm).
      cbn. destruct (Hkv eq_refl) as [[s ->]| ->]; apply IH; exact Hv'.
    + destruct (key_matches k "hint") eqn:Hh.
      * destruct (Hkv eq_refl) as [[s ->]| ->]; apply IH; exact Hv'.
      * apply IH; exact Hv'.
Qed.

(** [encoding/json] semantics of the error body: when every member whose
    key names a field holds a string or null, decoding succeeds and each
    field is the last string member whose key matches the field's tag under
    Unicode case folding ([foldName]; empty when there is none); unknown
    members are ignored. *)
Theorem unmarshalErrorResponse_last_member_wins p body kvs
  (Hp : p body = Some (JObject kvs))
  (Hv : forall k v, In (k, v) kvs ->
     key_matches k "code" || key_matches k "message" || key_matches k "hint" = true ->
     (exists s, v = JString s) \/ v = JNull) :
  unmarshalErrorResponse p body
  = Some (mkErrorResponse (lastStringMember "code" kvs) (lastStringMember "message" kvs)
            (lastStringMember "hint" kvs)).
Proof.
  unfold unmarshalErrorResponse. rewrite Hp.
  apply fold_storeErrorField_strings. exact Hv.
Qed.

Lemma fold_storeErrorField_mistyped kvs k v acc :
  In (k, v) kvs ->
  key_matches k "code" || key_matches k "message" || key_matches k "hint" = true ->
  match v with JString _ | JNull => False | _ => True end ->
  fold_left storeErrorField kvs acc = None.
Proof.
  revert acc. induction kvs as [|kv kvs IH]; intros acc Hin Hk Hv; [destruct Hin|].
  destruct Hin as [Heq|Hin]; [subst kv|apply IH; assumption].
  cbn [fold_left].
  replace (storeErrorField acc (k, v)) with (@None ErrorResponse);
    [apply fold_storeErrorField_None|].
  destruct acc as [e|]; [|reflexivity]. unfold storeErrorField.
  destruct (key_matches k "code"), (key_matches k "message"), (key_matches k "hint");
    try discriminate Hk; destruct v; try contradiction; reflexivity.
Qed.

Lemma fold_lastStep_unmatched tag kvs acc :
  (forall k v, In (k, v) kvs -> key_matches k tag = false) ->
  fold_left (lastStep tag) kvs acc = acc.
Proof.
  revert acc. induction kvs as [|[k v] kvs IH]; intros acc H; [reflexivity|].
  cbn [fold_left]. unfold lastStep at 2. cbn [fst].
  rewrite (H k v (or_introl eq_refl)). apply IH.
  intros k' v' Hin. apply (H k' v'). right. exact Hin.
Qed.

End Decoding.

(** A status of 400 or more whose body names a field with a key that
    folds to [code], [message] or [hint] ([key_matches]) with a number, boolean, array or object fails
    to decode, so the error carries the raw status and body instead of the
    server's code and message. *)
Theorem doRequest_mistyped_error_field p c m path b srv tr status body kvs k v
  (Hresp : srv tr (mkRequest m (baseURL c ++ "/api/v1" ++ path) (apiKey c) b)
           = Response status body)
  (Hs : 400 <= status) (Hp : p body = Some (JObject kvs)) (Hin : In (k, v) kvs)
  (Hk : key_matches k "code" || key_matches k "message" || key_matches k "hint" = true)
  (Hv : match v with JString _ | JNull => False | _ => True end) :
  fst (doRequest p c m path b srv tr) = Err ("HTTP " ++ itoa status ++ ": " ++ body).
Proof.
  rewrite doRequest_result, Hresp. cbn [classify].
  apply Z.leb_le in Hs. rewrite Hs.
  unfold unmarshalErrorResponse. rewrite Hp.
  rewrite (fold_storeErrorField_mistyped kvs k v _ Hin Hk Hv). reflexivity.
Qed.

(** A status of 400 or more with a [null] body, or an object body with no
    member whose key folds to [code], [message] or [hint], yields the error [API error:  - ]
    with an empty code and message: the body's content is dropped. *)
Theorem doRequest_error_body_without_fields p c m path b srv tr status body
  (Hresp : srv tr (mkRequest m (baseURL c ++ "/api/v1" ++ path) (apiKey c) b)
           = Response status body)
  (Hs : 400 <= status)
  (Hb : p body = Some JNull \/
        exists kvs, p body = Some (JObject kvs) /\
          forall k v, In (k, v) kvs ->
            key_matches k "code" || key_matches k "message" || key_matches k "hint" = false) :
  fst (doRequest p c m path b srv tr) = Err "API error:  - ".
Proof.
  rewrite doRequest_result, Hresp. cbn [classify].
  apply Z.leb_le in Hs. rewrite Hs.
  destruct Hb as [Hn | (kvs & Hp & Hk)].
  - unfold unmarshalErrorResponse. rewrite Hn. reflexivity.
  - rewrite (unmarshalErrorResponse_last_member_wins p body kvs Hp).
    + unfold lastStringMember. cbn [Code Message].
      rewrite !fold_lastStep_unmatched; [reflexivity| |];
        intros k v Hin; specialize (Hk k v Hin);
        destruct (key_matches k "code"), (key_matches k "message"), (key_matches k "hint");
        try discriminate Hk; reflexivity.
    + intros k v Hin H. rewrite (Hk k v Hin) in H. discriminate H.
Qed.

Lemma unmarshalErrorResponse_last_member_wins_witness :
  unmarshalErrorResponse
    (fun _ => Some (JObject [("CODE", JString "E1"); ("message", JString "a");
                             ("Message", JString "b");
                             ("me" ++ Example2.longS ++ Example2.longS ++ "age", JString "c");
                             ("hint", JNull)]))
    "body"
  = Some (mkErrorResponse "E1" "c" EmptyString).
Proof.
  refine (unmarshalErrorResponse_last_member_wins _ "body"
            [("CODE", JString "E1"); ("message", JString "a");
             ("Message", JString "b");
             ("me" ++ Example2.longS ++ Example2.longS ++ "age", JString "c");
             ("hint", JNull)] eq_refl _).
  intros k v Hin _.
  destruct Hin as [H|[H|[H|[H|[H|[]]]]]]; injection H as <- <-; eauto.
Defined.

Lemma doRequest_mistyped_error_field_witness :
  fst (doRequest Example2.parse2 Example.client MethodDelete "/users/u1" None Example2.server2 [])
  = Err ("HTTP " ++ itoa 404 ++ ": " ++ Example2.numericCodeBody).
Proof.
  apply (doRequest_mistyped_error_field Example2.parse2 Example.client MethodDelete
           "/users/u1" None Example2.server2 [] 404 Example2.numericCodeBody
           [("code", JNumber "404"); ("message", JString "Not Found")]
           "code" (JNumber "404")).
  - vm_compute. reflexivity.
  - lia.
  - vm_compute. reflexivity.
  - left. reflexivity.
  - reflexivity.
  - exact I.
Defined.

Lemma doRequest_error_body_without_fields_witness :
  fst (doRequest Example2.parse2 Example.client MethodPatch "/users/u1/role"
         (Some (BodyUpdateUserRole "global:admin")) Example2.server2 [])
  = Err "API error:  - ".
Proof.
  apply (doRequest_error_body_without_fields Example2.parse2 Example.client MethodPatch
           "/users/u1/role" (Some (BodyUpdateUserRole "global:admin")) Example2.server2 []
           403 Example2.otherErrorBody).
  - vm_compute. reflexivity.
  - lia.
  - right. exists [("error", JString "boom")]. split.
    + vm_compute. reflexivity.
    + intros k v [H|[]]. injection H as <- <-. reflexivity.
Defined.

(** [ListUsers] always sends exactly one request, GET [/users], appended
    to the earlier ones; on a successful response that decodes it returns
    the decoded page's [data]: the [next_cursor] the server returns is
    dropped and no further page is requested. *)
Theorem ListUsers_first_page_only {Time} (codec : Codec Time) unm c srv tr :
  snd (ListUsers codec unm c srv tr)
  = (tr ++ [mkRequest MethodGet (baseURL c ++ "/api/v1" ++ "/users") (apiKey c) None])%list /\
  (forall status body resp,
     srv tr (mkRequest MethodGet (baseURL c ++ "/api/v1" ++ "/users") (apiKey c) None)
     = Response status body ->
     status < 400 -> unm body = Ok resp ->
     fst (ListUsers codec unm c srv tr) = Ok (Data resp)).
Proof.
  unfold ListUsers. rewrite !bind_run, doRequest_trace, doRequest_result. split.
  - destruct (classify _ _) as [body|]; [destruct (unm body)|]; reflexivity.
  - intros status body resp Hresp Hs Hu. rewrite Hresp. cbn [classify].
    replace (400 <=? status) with false by (symmetry; apply Z.leb_gt; lia).
    rewrite Hu. reflexivity.
Qed.

Lemma ListUsers_first_page_only_witness :
  ListUsers Example.codec Example2.unmarshalUsers Example.client Example2.server2 []
  = (Ok [Example.alice], [mkRequest MethodGet (Example.api "/users") "key" None]).
Proof.
  destruct (ListUsers_first_page_only Example.codec Example2.unmarshalUsers Example.client
              Example2.server2 []) as [Ht Hr].
  apply injective_projections; [|exact Ht].
  apply (Hr 200 Example.userBody (mkUsersResponse [Example.alice] (Some "next"))).
  - vm_compute. reflexivity.
  - lia.
  - vm_compute. reflexivity.
Defined.

(** The diagnostics of [Configure] are exactly the unknown-value errors
    when the key or the URL is unknown, else exactly the missing-value
    errors for the key and URL that resolve to the empty string, each
    reported (key first); and a client is handed over exactly when there is
    no diagnostic. The [NewClient] error branch is never reached. *)
Theorem Configure_diagnostics (getenv : string -> string) data :
  let key := match pm_APIKey data with
             | StringValue s => s | _ => getenv "N8N_API_KEY" end in
  let url := match pm_InstanceURL data with
             | StringValue s => s | _ => getenv "N8N_INSTANCE_URL" end in
  let r := N8nCloudProvider.Configure getenv data in
  CfgDiagnostics r =
    (if IsUnknown (pm_APIKey data) || IsUnknown (pm_InstanceURL data)
     then (if IsUnknown (pm_APIKey data) then [N8nCloudProvider.unknownAPIKey] else []) ++
          (if IsUnknown (pm_InstanceURL data) then [N8nCloudProvider.unknownInstanceURL] else [])
     else (if String.eqb key EmptyString then [N8nCloudProvider.missingAPIKey] else []) ++
          (if String.eqb url EmptyString then [N8nCloudProvider.missingInstanceURL] else []))%list /\
  (ProviderData r = None <-> CfgDiagnostics r <> []).
Proof.
  intros key url r. subst key url r.
  destruct data as [ak iu tmo]. unfold N8nCloudProvider.Configure, NewClient.
  cbn [pm_APIKey pm_InstanceURL pm_Timeout].
  destruct ak as [| |k]; destruct iu as [| |u];
    cbn [IsUnknown IsNull negb orb ValueString app HasError CfgDiagnostics ProviderData
         BaseURL APIKey Timeout];
    repeat match goal with
           | |- context [String.eqb ?x EmptyString] => destruct (String.eqb x EmptyString)
           end;
    cbn [app HasError CfgDiagnostics ProviderData].
  all: split; [reflexivity|].
  all: split; intros H; try discriminate; try reflexivity.
  all: exfalso; apply H; reflexivity.
Qed.

(** An API key and an instance URL set in the configuration (or unknown)
    make [Configure] independent of the environment: [N8N_API_KEY] and
    [N8N_INSTANCE_URL] are read only for null attributes. *)
Theorem Configure_explicit_values_ignore_env (g1 g2 : string -> string) data
  (Hk : IsNull (pm_APIKey data) = false) (Hu : IsNull (pm_InstanceURL data) = false) :
  N8nCloudProvider.Configure g1 data = N8nCloudProvider.Configure g2 data.
Proof.
  destruct data as [ak iu tmo]. cbn [pm_APIKey pm_InstanceURL] in Hk, Hu.
  unfold N8nCloudProvider.Configure. cbn [pm_APIKey pm_InstanceURL pm_Timeout].
  rewrite Hk, Hu. reflexivity.
Qed.

Lemma Configure_explicit_values_ignore_env_witness :
  N8nCloudProvider.Configure (fun _ => EmptyString)
    (mkN8nCloudProviderModel (StringValue "key") (StringValue "https://n8n.example") Int64Null)
  = N8nCloudProvider.Configure (fun _ => "https://other.example")
    (mkN8nCloudProviderModel (StringValue "key") (StringValue "https://n8n.example") Int64Null).
Proof.
  apply Configure_explicit_values_ignore_env; reflexivity.
Defined.

Lemma wrap64_high (z : Z) :
  9223372036854775808 <= z < 18446744073709551616 -> wrap64 z = z - 18446744073709551616.
Proof.
  intros Hz. unfold wrap64. rewrite Z.mod_small by lia.
  replace (2 ^ 63 <=? z) with true by (symmetry; apply Z.leb_le; lia).
  reflexivity.
Qed.

(** Edge values of [timeout] in a configuration that yields a client: [0]
    and an unknown value both give the 30 s default (the unknown value reads
    as [0], which [NewClient] replaces); a negative number of seconds down
    to -9223372036 is passed on as that negative duration; from 9223372037 s
    to 18446744073 s the nanosecond count overflows [int64] and the
    duration wraps to a negative value. *)
Theorem Configure_timeout_edges (getenv : string -> string) data cl
  (Hcl : ProviderData (N8nCloudProvider.Configure getenv data) = Some cl) :
  (pm_Timeout data = Int64Value 0 \/ pm_Timeout data = Int64Unknown ->
     httpTimeout cl = defaultTimeout) /\
  (forall t, pm_Timeout data = Int64Value t -> -9223372036 <= t < 0 ->
     httpTimeout cl = t * 1000000000) /\
  (forall t, pm_Timeout data = Int64Value t -> 9223372037 <= t <= 18446744073 ->
     httpTimeout cl = t * 1000000000 - 18446744073709551616 /\ httpTimeout cl < 0).
Proof.
  destruct data as [ak iu tmo]. unfold N8nCloudProvider.Configure, NewClient in Hcl.
  cbn [pm_APIKey pm_InstanceURL pm_Timeout] in *.
  destruct ak as [| |k]; destruct iu as [| |u];
    cbn [IsUnknown IsNull negb orb ValueString app HasError CfgDiagnostics ProviderData
         BaseURL APIKey Timeout] in Hcl;
    repeat match type of Hcl with
           | context [String.eqb ?x EmptyString] => destruct (String.eqb x EmptyString)
           end;
    cbn [app HasError ProviderData] in Hcl; try discriminate Hcl;
    injection Hcl as <-; cbn [httpTimeout].
  all: split; [intros [H|H]; subst tmo; reflexivity|].
  all: split; [intros t -> Ht; cbn [Int64IsNull negb ValueInt64];
               rewrite wrap64_range by lia;
               replace (t * 1000000000 =? 0) with false by (symmetry; apply Z.eqb_neq; lia);
               reflexivity|].
  all: intros t -> Ht; cbn [Int64IsNull negb ValueInt64].
  all: rewrite wrap64_high by lia.
  all: replace (t * 1000000000 - 18446744073709551616 =? 0) with false
         by (symmetry; apply Z.eqb_neq; lia).
  all: split; [reflexivity | lia].
Qed.

Lemma Configure_timeout_edges_witness :
  let cl := mkClient "https://n8n.example" "key" (-9223372036709551616) in
  ProviderData (N8nCloudProvider.Configure (fun _ => EmptyString)
    (mkN8nCloudProviderModel (StringValue "key") (StringValue "https://n8n.example")
       (Int64Value 9223372037))) = Some cl /\ httpTimeout cl < 0.
Proof.
  intros cl. split; [vm_compute; reflexivity|].
  refine (proj2 (proj2 (proj2 (Configure_timeout_edges (fun _ => EmptyString)
    (mkN8nCloudProviderModel (StringValue "key") (StringValue "https://n8n.example")
       (Int64Value 9223372037)) cl _)) 9223372037 eq_refl _)).
  - vm_compute. reflexivity.
  - lia.
Defined.

Section ResourceExtras.
Context {Time : Type} (codec : Codec Time) (c : Client).

(** Reading a state that Read itself stored, while the server keeps
    returning the same user, stores that state again: Read has a fixed
    point, so an unchanged remote user never shows as drift. *)
Theorem Read_idempotent s srv tr srv' tr' u st
  (H1 : fst (Users.GetUser codec c (ValueString (rm_ID s)) srv tr) = Ok u)
  (H2 : fst (Users.GetUser codec c (ValueString (rm_ID s)) srv' tr') = Ok u)
  (Hst : StateSet (fst (UserResource.Read codec c s srv tr)) = Some st) :
  fst (UserResource.Read codec c st srv' tr') = mkResourceResponse [] (Some st).
Proof.
  unfold UserResource.Read in *. rewrite bind_run, H1 in Hst. cbn in Hst.
  injection Hst as <-. rewrite bind_run. cbn [rm_ID]. rewrite H2. cbn.
  destruct (String.eqb (Role u) EmptyString); reflexivity.
Qed.

(** Create followed by Read, when the server returns the created user
    unchanged and the planned email is the one it stores, leaves the state
    Create stored as it is. *)
Theorem Create_then_Read_no_drift plan srv tr srv' tr' u st
  (H1 : fst (Users.CreateUser codec c
               (mkCreateUserRequest (ValueString (rm_Email plan)) (ValueString (rm_Role plan))
                  EmptyString EmptyString) srv tr) = Ok u)
  (H2 : fst (Users.GetUser codec c (ID u) srv' tr') = Ok u)
  (He : rm_Email plan = StringValue (Email u))
  (Hst : StateSet (fst (UserResource.Create codec c plan srv tr)) = Some st) :
  fst (UserResource.Read codec c st srv' tr') = mkResourceResponse [] (Some st).
Proof.
  unfold UserResource.Create in Hst. rewrite bind_run, H1 in Hst. cbn in Hst.
  injection Hst as <-. unfold UserResource.Read. rewrite bind_run. cbn [rm_ID ValueString].
  rewrite H2. cbn. rewrite He.
  destruct (String.eqb (Role u) EmptyString); reflexivity.
Qed.

(** When the role PATCH fails, Update sends nothing more: the trace holds
    the PATCH alone, and the diagnostic carries the client's error. *)
Theorem Update_role_failure_skips_read plan srv tr err
  (H : fst (Users.UpdateUserRole codec c (ValueString (rm_ID plan)) (ValueString (rm_Role plan))
              srv tr) = Some err) :
  UserResource.Update codec c plan srv tr
  = (mkResourceResponse [ClientError ("Unable to update user role, got error: " ++ err)] None,
     (tr ++ [mkRequest MethodPatch
               (baseURL c ++ "/api/v1" ++ "/users/" ++ ValueString (rm_ID plan) ++ "/role")
               (apiKey c) (Some (BodyUpdateUserRole (ValueString (rm_Role plan))))])%list).
Proof.
  unfold UserResource.Update. rewrite bind_run, H, UpdateUserRole_trace. reflexivity.
Qed.

(** Delete always sends exactly one request, DELETE [/users/{id}],
    appended to the earlier ones; when the server answers it with a status
    of 400 or more (a 404 for a user already removed included) Delete
    reports a "Client Error": the code does not treat a missing user as
    deleted. *)
Theorem Delete_error_status_reported data srv tr :
  snd (UserResource.Delete codec c data srv tr)
  = (tr ++ [mkRequest MethodDelete
              (baseURL c ++ "/api/v1" ++ "/users/" ++ ValueString (rm_ID data))
              (apiKey c) None])%list /\
  (forall status body,
     srv tr (mkRequest MethodDelete
               (baseURL c ++ "/api/v1" ++ "/users/" ++ ValueString (rm_ID data))
               (apiKey c) None) = Response status body ->
     400 <= status ->
     exists err, fst (UserResource.Delete codec c data srv tr)
                 = [ClientError ("Unable to delete user, got error: " ++ err)]).
Proof.
  unfold UserResource.Delete. rewrite bind_run, DeleteUser_trace. split.
  - destruct (fst _); reflexivity.
  - intros status body Hresp Hs. unfold Users.DeleteUser.
    rewrite bind_run, doRequest_result, Hresp. cbn [classify].
    apply Z.leb_le in Hs. rewrite Hs.
    destruct (unmarshalErrorResponse (parseJSON codec) body); eexists; reflexivity.
Qed.

(** The data-source lookup by email (no id configured) always sends
    exactly one request, GET [/users/{email}], appended to the earlier
    ones; a stored state, on success, takes [id] and [email] from the user
    the server returned, and [role] from its global role (null when it has
    none), not from its [role] field. *)
Theorem DataSourceRead_by_email data e srv tr
  (Hid : ds_ID data = StringNull) (He : ds_Email data = StringValue e) :
  snd (UserDataSource.Read codec c data srv tr)
  = (tr ++ [mkRequest MethodGet (baseURL c ++ "/api/v1" ++ "/users/" ++ e) (apiKey c) None])%list /\
  (forall u, fst (Users.GetUser codec c e srv tr) = Ok u ->
   exists st, DsStateSet (fst (UserDataSource.Read codec c data srv tr)) = Some st /\
     ds_ID st = StringValue (ID u) /\ ds_Email st = StringValue (Email u) /\
     ds_Role st = match GlobalRole u with
                  | Some g => StringValue (Name g) | None => StringNull end).
Proof.
  unfold UserDataSource.Read, Users.GetUserByEmail. rewrite Hid, He.
  cbn [IsNull andb negb ValueString]. rewrite !bind_run. split.
  - rewrite GetUser_trace. destruct (fst (Users.GetUser _ _ _ _ _)); reflexivity.
  - intros u Hu. rewrite Hu. eexists. split; [reflexivity|]. cbn. auto.
Qed.

End ResourceExtras.

Lemma Read_idempotent_witness :
  fst (UserResource.Read Example.codec Example.client Example.created Example.server [])
  = mkResourceResponse [] (Some Example.created).
Proof.
  apply (Read_idempotent Example.codec Example.client
           (Example.plan (StringValue "u1") StringNull (StringValue "global:member"))
           Example.server [] Example.server [] Example.alice Example.created);
    vm_compute; reflexivity.
Defined.

Lemma Create_then_Read_no_drift_witness :
  fst (UserResource.Read Example.codec Example.client Example.created Example.server
         [mkRequest MethodPost (Example.api "/users") "key"
            (Some (BodyCreateUser (mkCreateUserRequest "a@x.com" "global:member"
                                     EmptyString EmptyString)))])
  = mkResourceResponse [] (Some Example.created).
Proof.
  apply (Create_then_Read_no_drift Example.codec Example.client Example.createPlan
           Example.server [] Example.server _ Example.alice Example.created);
    vm_compute; reflexivity.
Defined.

Lemma Update_role_failure_skips_read_witness :
  UserResource.Update Example2.codec2 Example.client Example.updatePlan Example2.server2 []
  = (mkResourceResponse [ClientError "Unable to update user role, got error: API error:  - "] None,
     [mkRequest MethodPatch (Example.api "/users/u1/role") "key"
        (Some (BodyUpdateUserRole "global:admin"))]).
Proof.
  apply (Update_role_failure_skips_read Example2.codec2 Example.client Example.updatePlan
           Example2.server2 [] "API error:  - ").
  vm_compute. reflexivity.
Defined.

Lemma Delete_error_status_reported_witness :
  snd (UserResource.Delete Example2.codec2 Example.client Example.updatePlan Example2.server2 [])
  = [mkRequest MethodDelete (Example.api "/users/u1") "key" None] /\
  exists err,
    fst (UserResource.Delete Example2.codec2 Example.client Example.updatePlan Example2.server2 [])
    = [ClientError ("Unable to delete user, got error: " ++ err)].
Proof.
  destruct (Delete_error_status_reported Example2.codec2 Example.client Example.updatePlan
              Example2.server2 []) as [Ht Hr].
  split; [exact Ht|].
  apply (Hr 404 Example2.numericCodeBody).
  - vm_compute. reflexivity.
  - lia.
Defined.

Lemma DataSourceRead_by_email_witness :
  snd (UserDataSource.Read Example.codec Example.client
         (Example.dsConfig StringNull (StringValue "a@x.com")) Example.server [])
  = [mkRequest MethodGet (Example.api "/users/a@x.com") "key" None] /\
  exists st, DsStateSet (fst (UserDataSource.Read Example.codec Example.client
                                (Example.dsConfig StringNull (StringValue "a@x.com"))
                                Example.server [])) = Some st /\
    ds_ID st = StringValue "u1" /\ ds_Email st = StringValue "a@x.com" /\
    ds_Role st = StringNull.
Proof.
  destruct (DataSourceRead_by_email Example.codec Example.client
              (Example.dsConfig StringNull (StringValue "a@x.com")) "a@x.com"
              Example.server [] eq_refl eq_refl) as [Ht Hr].
  split; [exact Ht|].
  apply (Hr Example.alice). vm_compute. reflexivity.
Defined.

Lemma string_app_assoc (a b d : string) : (a ++ b) ++ d = a ++ b ++ d.
Proof. induction a as [|ch a IH]; [reflexivity | cbn; rewrite IH; reflexivity]. Qed.

Lemma usersRequest_users_path c m rest b :
  usersRequest c (mkRequest m (baseURL c ++ "/api/v1" ++ "/users" ++ rest) (apiKey c) b) = true.
Proof.
  unfold usersRequest. cbn [rq_apiKey rq_url]. rewrite String.eqb_refl. cbn [andb].
  change ("/api/v1" ++ "/users" ++ rest) with ("/api/v1/users" ++ rest).
  rewrite <- string_app_assoc. apply prefix_app.
Qed.

Section Scope.
Context {Time : Type} (codec : Codec Time) (c : Client).

Ltac users_trace :=
  eexists; split; [reflexivity|];
  repeat constructor;
  first [ apply usersRequest_users_path
        | apply (usersRequest_users_path c _ "") ].

(** Every operation only appends to the request trace, and every request
    it hands to the HTTP client carries the client's API key and a URL
    string that starts with [{baseURL}/api/v1/users]. (Path segments such
    as an id are concatenated unescaped, and redirects followed by the
    [http.Client] are outside the model, so this is a statement about the
    URL string built, not about the endpoint the server resolves.) *)
Theorem operations_only_send_users_requests srv tr :
  let scoped tr' := exists new, tr' = (tr ++ new)%list /\
                      Forall (fun r => usersRequest c r = true) new in
  (forall plan, scoped (snd (UserResource.Create codec c plan srv tr))) /\
  (forall s, scoped (snd (UserResource.Read codec c s srv tr))) /\
  (forall plan, scoped (snd (UserResource.Update codec c plan srv tr))) /\
  (forall s, scoped (snd (UserResource.Delete codec c s srv tr))) /\
  (forall reqID, scoped (snd (UserResource.ImportState codec c reqID srv tr))) /\
  (forall data, scoped (snd (UserDataSource.Read codec c data srv tr))) /\
  (forall unm, scoped (snd (ListUsers codec unm c srv tr))).
Proof.
  intros scoped. subst scoped. repeat split.
  - intros plan. unfold UserResource.Create. rewrite bind_run, CreateUser_trace.
    destruct (fst _); users_trace.
  - intros s. unfold UserResource.Read. rewrite bind_run, GetUser_trace.
    destruct (fst _); users_trace.
  - intros plan. unfold UserResource.Update. rewrite bind_run, UpdateUserRole_trace.
    destruct (fst _) as [err|]; [users_trace|].
    rewrite bind_run, GetUser_trace, <- app_assoc.
    destruct (fst _); cbn [app]; users_trace.
  - intros s. unfold UserResource.Delete. rewrite bind_run, DeleteUser_trace.
    destruct (fst _); users_trace.
  - intros reqID. unfold UserResource.ImportState. rewrite bind_run, GetUser_trace.
    destruct (fst _); users_trace.
  - intros data. unfold UserDataSource.Read.
    destruct (IsNull (ds_ID data) && IsNull (ds_Email data)).
    + exists []. split; [symmetry; apply app_nil_r | constructor].
    + set (get := if negb (IsNull (ds_ID data))
                  then Users.GetUser codec c (ValueString (ds_ID data))
                  else Users.GetUserByEmail codec c (ValueString (ds_Email data))).
      assert (Hg : exists id, snd (get srv tr)
                   = (tr ++ [mkRequest MethodGet (baseURL c ++ "/api/v1" ++ "/users/" ++ id)
                               (apiKey c) None])%list)
        by (subst get; destruct (negb _); eexists; apply GetUser_trace).
      destruct Hg as [id Hg]. rewrite bind_run, Hg.
      destruct (fst (get srv tr)); users_trace.
  - intros unm. unfold ListUsers. rewrite bind_run, doRequest_trace.
    destruct (fst _) as [body|]; [destruct (unm body)|]; users_trace.
Qed.

End Scope.
